(** * Node liveness records: comparison order and membership transitions

    A shallow embedding of [pkg/kv/kvserver/liveness/livenesspb/liveness.go]:
    the liveness predicates [IsLive] and [IsDead], the recency order
    [Compare], the rendering of a membership status and the transition
    validator [ValidateTransition], followed by the properties the
    specification states about them.

    Go's fixed-width integers are carried as [Z]: the functions of this
    file only compare them.  The one addition, of a duration to the wall
    time of a timestamp, is written with the wrap-around of 64-bit signed
    arithmetic.  A Go call that may panic returns a [result]. *)

From Stdlib Require Import ZArith String Bool Lia DecimalString.
From stdpp Require Import gmap strings list.

Local Open Scope Z_scope.

(** ** Outcome of a call that may panic *)

Inductive result (A : Type) : Type :=
| Return (a : A)
| Panic (msg : string).

Arguments Return {A} a.
Arguments Panic {A} msg.

(** Sequencing in stdpp's monad notation [x ← r; k]: a panic cuts the
    rest of the computation short, as it unwinds the Go call. *)
#[global] Instance result_ret : MRet result := fun A a => Return a.

#[global] Instance result_bind : MBind result := fun A B k r =>
  match r with
  | Return a => k a
  | Panic msg => Panic msg
  end.

(** ** 64-bit signed integers *)

Definition MinInt64 : Z := -9223372036854775808.
Definition MaxInt64 : Z := 9223372036854775807.

Definition in_int64 (z : Z) : Prop := MinInt64 <= z <= MaxInt64.

(** The value Go keeps of a sum of two [int64]: its low 64 bits, read as a
    signed number. *)
Definition wrap_int64 (z : Z) : Z :=
  (z + 9223372036854775808) mod 18446744073709551616 - 9223372036854775808.

Arguments wrap_int64 : simpl never.

(** ** Timestamps of the hybrid logical clock *)

Module hlc.

(** Modelled from the spec: the package [pkg/util/hlc] is not part of the
    sources at hand.  A timestamp is the composite of a physical
    component (wall time, in nanoseconds) and a logical component. *)
Record Timestamp : Type := MkTimestamp { WallTime : Z; Logical : Z }.

(** Modelled from the spec: the causal ordering of timestamps, physical
    component first and logical component as the tie-break ("earlier"). *)
Definition Less (t s : Timestamp) : bool :=
  (WallTime t <? WallTime s)
  || ((WallTime t =? WallTime s) && (Logical t <? Logical s)).

(** Modelled from the spec: two timestamps sort equally when neither
    component differs. *)
Definition EqOrdering (t s : Timestamp) : bool :=
  (WallTime t =? WallTime s) && (Logical t =? Logical s).

(** Modelled from the spec: [Expiration + threshold]; a duration is a
    number of nanoseconds and moves the physical component only.  Wall
    time and duration are both [int64], and their sum wraps around. *)
Definition AddDuration (t : Timestamp) (duration : Z) : Timestamp :=
  {| WallTime := wrap_int64 (WallTime t + duration); Logical := Logical t |}.

(** Modelled from the spec: the persisted form of a timestamp, as the
    [Expiration] field stores it, with the same two components. *)
Record LegacyTimestamp : Type :=
  MkLegacyTimestamp { LegacyWallTime : Z; LegacyLogical : Z }.

(** Modelled from the spec: conversion of the persisted form; both
    components are kept. *)
Definition ToTimestamp (t : LegacyTimestamp) : Timestamp :=
  {| WallTime := LegacyWallTime t; Logical := LegacyLogical t |}.

(** Modelled from the spec: the ordering of the persisted form is the
    ordering of the timestamps it converts to. *)
Definition LegacyLess (t s : LegacyTimestamp) : bool :=
  Less (ToTimestamp t) (ToTimestamp s).

Definition LegacyEqOrdering (t s : LegacyTimestamp) : bool :=
  EqOrdering (ToTimestamp t) (ToTimestamp s).

(** The words of the specification, as propositions: [t] is strictly
    earlier than [s], and [t] is not later than [s]. *)
Definition strictly_earlier (t s : Timestamp) : Prop :=
  WallTime t < WallTime s
  \/ (WallTime t = WallTime s /\ Logical t < Logical s).

Definition not_later (t s : Timestamp) : Prop :=
  strictly_earlier t s \/ t = s.

(** The timestamp [t + d] of the specification, in exact arithmetic. *)
Definition plus (t : Timestamp) (d : Z) : Timestamp :=
  {| WallTime := WallTime t + d; Logical := Logical t |}.

End hlc.

(** ** Error values *)

Module codes.

(** The canonical status codes of gRPC, in their numeric order. *)
Inductive Code : Set :=
| OK | Canceled | Unknown | InvalidArgument | DeadlineExceeded | NotFound
| AlreadyExists | PermissionDenied | ResourceExhausted | FailedPrecondition
| Aborted | OutOfRange | Unimplemented | Internal | Unavailable | DataLoss
| Unauthenticated.

End codes.

(** An error is either an assertion failure ([errors.AssertionFailedf]) or
    a status carrying a code and a message ([status.Error]). *)
Inductive error : Type :=
| AssertionFailedf (msg : string)
| status_Error (c : codes.Code) (msg : string).

(** [errors.HasAssertionFailure]. *)
Definition HasAssertionFailure (e : error) : bool :=
  match e with
  | AssertionFailedf _ => true
  | status_Error _ _ => false
  end.

(** [status.Code]: the code of a status error, [Unknown] for any other
    error. *)
Definition status_Code (e : error) : codes.Code :=
  match e with
  | AssertionFailedf _ => codes.Unknown
  | status_Error c _ => c
  end.

(** The verb [%d] of [fmt.Sprintf] on an integer. *)
Definition fmt_d (n : Z) : string := NilZero.string_of_int (Z.to_int n).

(** ** The liveness record *)

(** Modelled from the spec: the generated enumeration is not part of the
    sources at hand.  A status is a 32-bit integer; [Active] is the value
    of a record on which nothing was set, the other two follow in the
    order of the decommissioning lifecycle. *)
Definition MembershipStatus : Type := Z.

Definition MembershipStatus_ACTIVE : MembershipStatus := 0.
Definition MembershipStatus_DECOMMISSIONING : MembershipStatus := 1.
Definition MembershipStatus_DECOMMISSIONED : MembershipStatus := 2.

Module roachpb.

(** Modelled from the spec: the identifier of a node, a 32-bit integer
    declared outside the sources at hand. *)
Definition NodeID : Type := Z.

End roachpb.

(** Modelled from the spec: the generated struct is not part of the sources
    at hand; its five fields are those of the data model. *)
Record Liveness : Type := MkLiveness {
  NodeID : roachpb.NodeID;
  Epoch : Z;
  Expiration : hlc.LegacyTimestamp;
  Draining : bool;
  Membership : MembershipStatus
}.

(** [Liveness{}], the record whose fields all hold their zero value. *)
Definition Liveness_zero : Liveness :=
  {| NodeID := 0;
     Epoch := 0;
     Expiration := hlc.MkLegacyTimestamp 0 0;
     Draining := false;
     Membership := 0 |}.

(** Go's [==] on the struct: field by field. *)
Definition LegacyTimestamp_eqb (t s : hlc.LegacyTimestamp) : bool :=
  (hlc.LegacyWallTime t =? hlc.LegacyWallTime s)
  && (hlc.LegacyLogical t =? hlc.LegacyLogical s).

Definition Liveness_eqb (a b : Liveness) : bool :=
  (NodeID a =? NodeID b)
  && (Epoch a =? Epoch b)
  && LegacyTimestamp_eqb (Expiration a) (Expiration b)
  && Bool.eqb (Draining a) (Draining b)
  && (Membership a =? Membership b).

(** [IsLive] (liveness.go, lines 34-36). *)
Definition IsLive (l : Liveness) (now : hlc.Timestamp) : bool :=
  hlc.Less now (hlc.ToTimestamp (Expiration l)).

(** [IsDead] (lines 41-44); the threshold is a [time.Duration], a number of
    nanoseconds. *)
Definition IsDead (l : Liveness) (now : hlc.Timestamp) (threshold : Z) : bool :=
  let expiration := hlc.AddDuration (hlc.ToTimestamp (Expiration l)) threshold in
  negb (hlc.Less now expiration).

(** [Compare] (lines 48-63). *)
Definition Compare (l o : Liveness) : Z :=
  if negb (Epoch l =? Epoch o) then
    if Epoch l <? Epoch o then -1 else 1
  else if negb (hlc.LegacyEqOrdering (Expiration l) (Expiration o)) then
    if hlc.LegacyLess (Expiration l) (Expiration o) then -1 else 1
  else 0.

(** The three shorthands on a status (lines 74-80). *)
Definition Decommissioning (c : MembershipStatus) : bool :=
  c =? MembershipStatus_DECOMMISSIONING.

Definition Decommissioned (c : MembershipStatus) : bool :=
  c =? MembershipStatus_DECOMMISSIONED.

Definition Active (c : MembershipStatus) : bool :=
  c =? MembershipStatus_ACTIVE.

Definition unknown_membership_status : string :=
  "unknown membership status, expected one of [active,decommissioning,decommissioned]".

(** [MembershipStatus.String] (lines 82-95): the [default] branch of the
    switch panics. *)
Definition MembershipStatus_String (c : MembershipStatus) : result string :=
  if c =? MembershipStatus_ACTIVE then Return "active"%string
  else if c =? MembershipStatus_DECOMMISSIONING then Return "decommissioning"%string
  else if c =? MembershipStatus_DECOMMISSIONED then Return "decommissioned"%string
  else Panic unknown_membership_status.

Definition empty_record_error : error :=
  AssertionFailedf "invalid old liveness record; found to be empty".

Definition recommission_message (n : roachpb.NodeID) (s : string) : string :=
  ("can only recommission a decommissioning node; n" ++ fmt_d n
     ++ " found to be " ++ s)%string.

Definition decommission_message (n : roachpb.NodeID) (s : string) : string :=
  ("can only fully decommission an already decommissioning node; n" ++ fmt_d n
     ++ " found to be " ++ s)%string.

(** [ValidateTransition] (lines 108-139).  The arguments of [fmt.Sprintf]
    are evaluated before the error is built, so a status that cannot be
    rendered panics there. *)
Definition ValidateTransition (old : Liveness) (newStatus : MembershipStatus)
  : result (bool * option error) :=
  if Liveness_eqb old Liveness_zero then
    Return (false, Some empty_record_error)
  else if Membership old =? newStatus then
    Return (false, None)
  else if Decommissioned (Membership old) && Decommissioning newStatus then
    Return (false, None)
  else if Active newStatus && negb (Decommissioning (Membership old)) then
    s ← MembershipStatus_String (Membership old);
    let err := recommission_message (NodeID old) s in
    Return (false, Some (status_Error codes.FailedPrecondition err))
  else if Decommissioned newStatus && negb (Decommissioning (Membership old)) then
    s ← MembershipStatus_String (Membership old);
    let err := decommission_message (NodeID old) s in
    Return (false, Some (status_Error codes.FailedPrecondition err))
  else
    Return (true, None).

(** ** Rendering of a record *)

(** The verb [%t] of [fmt.Sprintf] on a boolean. *)
Definition fmt_t (b : bool) : string := if b then "true" else "false".

Section Rendering.

(** The text [%s] gives for an expiration: the rendering of a timestamp
    belongs to the clock package and is taken as a parameter. *)
Variable LegacyTimestamp_String : hlc.LegacyTimestamp -> string.

(** [Liveness.String] (lines 65-71): the suffix is built, and the status
    rendered, only for a record that drains or is on its way out. *)
Definition Liveness_String (l : Liveness) : result string :=
  extra ←
    (if Draining l || Decommissioning (Membership l) || Decommissioned (Membership l)
     then
       s ← MembershipStatus_String (Membership l);
       Return (" drain:" ++ fmt_t (Draining l) ++ " membership:" ++ s)%string
     else Return ""%string);
  Return ("liveness(nid:" ++ fmt_d (NodeID l) ++ " epo:" ++ fmt_d (Epoch l)
            ++ " exp:" ++ LegacyTimestamp_String (Expiration l) ++ extra ++ ")")%string.

End Rendering.

(** ** The liveness snapshot *)

(** [IsLiveMapEntry] and [IsLiveMap] (lines 143-149); the entry embeds the
    record. *)
Record IsLiveMapEntry : Type := MkIsLiveMapEntry {
  Entry_Liveness : Liveness;
  Entry_IsLive : bool
}.

Abbreviation IsLiveMap := (gmap roachpb.NodeID IsLiveMapEntry).

(** Modelled from the spec: the function that builds a snapshot is not part
    of the sources at hand, which declare the two types above only.  From
    a collection of (node id, record) pairs and one reference time: each
    record is stored under its node id together with [IsLive] at that
    time; a record whose membership status is outside the enumeration
    makes the whole construction fail. *)
Fixpoint BuildIsLiveMap (records : list (roachpb.NodeID * Liveness)) (now : hlc.Timestamp)
  : result IsLiveMap :=
  match records with
  | [] => Return ∅
  | (nid, l) :: rest =>
      _ ← MembershipStatus_String (Membership l);
      m ← BuildIsLiveMap rest now;
      Return (<[nid := MkIsLiveMapEntry l (IsLive l now)]> m)
  end.

(** ** Notions the properties are stated with *)

(** The key [Compare] sorts by: the epoch, then the expiration. *)
Definition older (a b : Liveness) : Prop :=
  Epoch a < Epoch b
  \/ (Epoch a = Epoch b
      /\ hlc.strictly_earlier (hlc.ToTimestamp (Expiration a))
                              (hlc.ToTimestamp (Expiration b))).

Definition same_age (a b : Liveness) : Prop :=
  Epoch a = Epoch b
  /\ hlc.LegacyWallTime (Expiration a) = hlc.LegacyWallTime (Expiration b)
  /\ hlc.LegacyLogical (Expiration a) = hlc.LegacyLogical (Expiration b).

(** Whether the outcome of a validation is an assertion failure. *)
Definition assertion_failed (r : result (bool * option error)) : bool :=
  match r with
  | Return (_, Some e) => HasAssertionFailure e
  | _ => false
  end.

(** The entry a snapshot holds for a record. *)
Definition snapshot_entry (now : hlc.Timestamp) (l : Liveness) : IsLiveMapEntry :=
  MkIsLiveMapEntry l (IsLive l now).

(** A membership status of the enumeration. *)
Definition valid_membership (c : MembershipStatus) : Prop :=
  c = MembershipStatus_ACTIVE
  \/ c = MembershipStatus_DECOMMISSIONING
  \/ c = MembershipStatus_DECOMMISSIONED.

Definition membership_ok (c : MembershipStatus) : bool :=
  match MembershipStatus_String c with
  | Return _ => true
  | Panic _ => false
  end.

(** The transitions of the doc comment of [ValidateTransition]. *)
Definition valid_edge (from to : MembershipStatus) : Prop :=
  (from = MembershipStatus_DECOMMISSIONING /\ to = MembershipStatus_ACTIVE)
  \/ (from = MembershipStatus_ACTIVE /\ to = MembershipStatus_DECOMMISSIONING)
  \/ (from = MembershipStatus_DECOMMISSIONING /\ to = MembershipStatus_DECOMMISSIONED).

(** The pairs of a collection, read as a set keyed by node id: no node id
    comes with two different records. *)
Definition one_record_per_node (records : list (roachpb.NodeID * Liveness)) : Prop :=
  forall nid l1 l2, (nid, l1) ∈ records -> (nid, l2) ∈ records -> l1 = l2.

Definition same_pairs (rs1 rs2 : list (roachpb.NodeID * Liveness)) : Prop :=
  forall p, p ∈ rs1 <-> p ∈ rs2.

(** * Properties *)

(** ** The order of timestamps *)

Section TimestampOrder.

Import hlc.

Lemma Less_strictly_earlier (t s : Timestamp) :
  Less t s = true <-> strictly_earlier t s.
Proof.
  unfold Less, strictly_earlier.
  rewrite orb_true_iff, andb_true_iff, Z.ltb_lt, Z.eqb_eq, Z.ltb_lt.
  reflexivity.
Qed.

Lemma Less_irrefl (t : Timestamp) : Less t t = false.
Proof.
  apply not_true_is_false. rewrite Less_strictly_earlier.
  unfold strictly_earlier. lia.
Qed.

Lemma EqOrdering_components (t s : Timestamp) :
  EqOrdering t s = true <-> WallTime t = WallTime s /\ Logical t = Logical s.
Proof.
  unfold EqOrdering. rewrite andb_true_iff, !Z.eqb_eq. reflexivity.
Qed.

Lemma Timestamp_ext (t s : Timestamp) :
  WallTime t = WallTime s -> Logical t = Logical s -> t = s.
Proof. destruct t, s; simpl; congruence. Qed.

Lemma not_earlier_not_later (t s : Timestamp) :
  ~ strictly_earlier t s <-> not_later s t.
Proof.
  unfold not_later, strictly_earlier. split.
  - intros H.
    destruct (Z.lt_trichotomy (WallTime s) (WallTime t)) as [Hw | [Hw | Hw]];
      [lia | | lia].
    destruct (Z.lt_trichotomy (Logical s) (Logical t)) as [Hl | [Hl | Hl]];
      [lia | | lia].
    right. now apply Timestamp_ext.
  - intros [H | ->]; lia.
Qed.

Lemma wrap_int64_exact (z : Z) : in_int64 z -> wrap_int64 z = z.
Proof.
  unfold in_int64, MinInt64, MaxInt64, wrap_int64. intros H.
  rewrite Z.mod_small; lia.
Qed.

Lemma AddDuration_exact (t : Timestamp) (d : Z) :
  in_int64 (WallTime t + d) -> AddDuration t d = plus t d.
Proof.
  intros H. unfold AddDuration, plus. now rewrite wrap_int64_exact.
Qed.

Lemma plus_later (t : Timestamp) (d : Z) :
  0 < d -> strictly_earlier t (plus t d).
Proof. intros Hd. left. simpl. lia. Qed.

End TimestampOrder.

(** ** Struct equality *)

Lemma LegacyTimestamp_eqb_eq (t s : hlc.LegacyTimestamp) :
  LegacyTimestamp_eqb t s = true <-> t = s.
Proof.
  unfold LegacyTimestamp_eqb. rewrite andb_true_iff, !Z.eqb_eq.
  destruct t, s; simpl. split; [intros [-> ->]; reflexivity | intros [= -> ->]; auto].
Qed.

Lemma Liveness_eqb_eq (a b : Liveness) : Liveness_eqb a b = true <-> a = b.
Proof.
  unfold Liveness_eqb.
  rewrite !andb_true_iff, !Z.eqb_eq, LegacyTimestamp_eqb_eq, Bool.eqb_true_iff.
  destruct a, b; simpl. split.
  - intros [[[[-> ->] ->] ->] ->]. reflexivity.
  - intros [= -> -> -> -> ->]. auto.
Qed.

Lemma Liveness_eqb_neq (a b : Liveness) : Liveness_eqb a b = false <-> a <> b.
Proof.
  rewrite <- Liveness_eqb_eq. destruct (Liveness_eqb a b); split; congruence.
Qed.

(** ** The recency order *)

(** Case analysis on every integer comparison [Compare] performs, each case
    with the arithmetic fact it stands for. *)
Ltac compare_cases :=
  unfold Compare, hlc.LegacyEqOrdering, hlc.LegacyLess, hlc.EqOrdering, hlc.Less;
  simpl;
  repeat match goal with
    | |- context [?x =? ?y] => destruct (Z.eqb_spec x y); simpl
    | |- context [?x <? ?y] => destruct (Z.ltb_spec x y); simpl
    end.

Lemma Compare_range (a b : Liveness) :
  Compare a b = -1 \/ Compare a b = 0 \/ Compare a b = 1.
Proof. compare_cases; auto. Qed.

Lemma Compare_spec (a b : Liveness) :
  (Compare a b = -1 /\ older a b)
  \/ (Compare a b = 0 /\ same_age a b)
  \/ (Compare a b = 1 /\ older b a).
Proof.
  unfold older, same_age, hlc.strictly_earlier.
  compare_cases; lia.
Qed.

(** C1. Epoch dominance: when [a.Epoch < b.Epoch], [Compare(a, b)] is [-1]
    and [Compare(b, a)] is [+1], whatever the expirations and the other
    fields of the two records are. *)
Theorem Compare_epoch_dominance (a b : Liveness) :
  Epoch a < Epoch b -> Compare a b = -1 /\ Compare b a = 1.
Proof.
  intros Hlt. split.
  - unfold Compare.
    destruct (Z.eqb_spec (Epoch a) (Epoch b)) as [Heq | _]; [lia |].
    simpl. destruct (Z.ltb_spec (Epoch a) (Epoch b)); [reflexivity | lia].
  - unfold Compare.
    destruct (Z.eqb_spec (Epoch b) (Epoch a)) as [Heq | _]; [lia |].
    simpl. destruct (Z.ltb_spec (Epoch b) (Epoch a)); [lia | reflexivity].
Qed.

Lemma Compare_epoch_dominance_witness :
  Compare (MkLiveness 1 3 (hlc.MkLegacyTimestamp 900 7) true 2)
          (MkLiveness 1 4 (hlc.MkLegacyTimestamp 100 0) false 0) = -1
  /\ Compare (MkLiveness 1 4 (hlc.MkLegacyTimestamp 100 0) false 0)
             (MkLiveness 1 3 (hlc.MkLegacyTimestamp 900 7) true 2) = 1.
Proof.
  apply (Compare_epoch_dominance
           (MkLiveness 1 3 (hlc.MkLegacyTimestamp 900 7) true 2)
           (MkLiveness 1 4 (hlc.MkLegacyTimestamp 100 0) false 0)).
  simpl. lia.
Defined.

(** C2. [Compare] is a total order up to equivalence: [Compare(a, a)] is
    [0]; [Compare(a, b)] is the opposite of [Compare(b, a)]; it is
    transitive; and it is [0] on two records that agree on [Epoch] and
    [Expiration], whatever their node ids, draining flags and membership
    statuses are. *)
Theorem Compare_total_order (a b c : Liveness) :
  Compare a a = 0
  /\ Compare a b = - Compare b a
  /\ (Compare a b <= 0 -> Compare b c <= 0 -> Compare a c <= 0)
  /\ (Epoch a = Epoch b -> Expiration a = Expiration b -> Compare a b = 0).
Proof.
  repeat split.
  - compare_cases; lia.
  - compare_cases; lia.
  - intros Hab Hbc.
    pose proof (Compare_spec a b) as Sab.
    pose proof (Compare_spec b c) as Sbc.
    pose proof (Compare_spec a c) as Sac.
    unfold older, same_age, hlc.strictly_earlier in Sab, Sbc, Sac.
    simpl in Sab, Sbc, Sac. lia.
  - intros He Hx.
    destruct (Compare_spec a b) as [[_ K] | [[E _] | [_ K]]]; [| exact E |];
      unfold older, hlc.strictly_earlier in K; rewrite Hx in K; lia.
Qed.

Lemma Compare_total_order_witness :
  let a := MkLiveness 1 2 (hlc.MkLegacyTimestamp 50 1) false 0 in
  let b := MkLiveness 9 2 (hlc.MkLegacyTimestamp 50 1) true 2 in
  let c := MkLiveness 1 2 (hlc.MkLegacyTimestamp 50 4) false 1 in
  Compare a a = 0 /\ Compare a b = - Compare b a
  /\ Compare a b = 0 /\ Compare b c = -1 /\ Compare a c <= 0.
Proof.
  intros a b c.
  destruct (Compare_total_order a b c) as (Hrefl & Hanti & Htrans & Heq).
  split; [exact Hrefl |].
  split; [exact Hanti |].
  split; [apply Heq; reflexivity |].
  split; [reflexivity |].
  apply Htrans; vm_compute; discriminate.
Defined.

(** ** Liveness and deadness at a reference time *)

(** C6. [IsLive(now)] holds exactly when [now] is strictly earlier than
    the expiration of the record; at [now] equal to the expiration the
    record is not live any more. *)
Theorem IsLive_iff_strictly_earlier (l : Liveness) (now : hlc.Timestamp) :
  (IsLive l now = true
   <-> hlc.strictly_earlier now (hlc.ToTimestamp (Expiration l)))
  /\ IsLive l (hlc.ToTimestamp (Expiration l)) = false.
Proof.
  split.
  - unfold IsLive. apply Less_strictly_earlier.
  - unfold IsLive. apply Less_irrefl.
Qed.

Lemma IsDead_iff_not_earlier (l : Liveness) (now : hlc.Timestamp) (threshold : Z) :
  IsDead l now threshold = true
  <-> ~ hlc.strictly_earlier now
        (hlc.AddDuration (hlc.ToTimestamp (Expiration l)) threshold).
Proof.
  unfold IsDead. cbv zeta.
  rewrite negb_true_iff, <- Less_strictly_earlier.
  destruct (hlc.Less now _); split; congruence.
Qed.

Lemma IsDead_iff_not_earlier_exact (l : Liveness) (now : hlc.Timestamp) (threshold : Z) :
  in_int64 (hlc.WallTime (hlc.ToTimestamp (Expiration l)) + threshold) ->
  IsDead l now threshold = true
  <-> ~ hlc.strictly_earlier now (hlc.plus (hlc.ToTimestamp (Expiration l)) threshold).
Proof.
  intros Hr. rewrite IsDead_iff_not_earlier, AddDuration_exact by assumption.
  reflexivity.
Qed.

(** C7, as stated, fails on the code: the wall time of [E + T] is a 64-bit
    sum.  For an expiration at the largest wall time and a threshold of
    one nanosecond the sum wraps around to the smallest wall time: the
    record is dead at time zero, long before [E], and no time at all is
    neither live nor dead. *)
Lemma IsDead_grace_window_counterexample :
  0 < 1
  /\ hlc.strictly_earlier (hlc.MkTimestamp 0 0)
       (hlc.ToTimestamp (Expiration (MkLiveness 1 1 (hlc.MkLegacyTimestamp MaxInt64 0) false 0)))
  /\ IsDead (MkLiveness 1 1 (hlc.MkLegacyTimestamp MaxInt64 0) false 0)
            (hlc.MkTimestamp 0 0) 1 = true
  /\ ~ (exists now : hlc.Timestamp,
          IsLive (MkLiveness 1 1 (hlc.MkLegacyTimestamp MaxInt64 0) false 0) now = false
          /\ IsDead (MkLiveness 1 1 (hlc.MkLegacyTimestamp MaxInt64 0) false 0) now 1
             = false).
Proof.
  split; [lia |]. split; [left; reflexivity |]. split; [reflexivity |].
  intros (now & Hlive & Hdead).
  apply not_true_iff_false in Hlive, Hdead.
  unfold IsLive in Hlive. rewrite Less_strictly_earlier in Hlive.
  rewrite IsDead_iff_not_earlier in Hdead.
  change (hlc.AddDuration
            (hlc.ToTimestamp
               (Expiration (MkLiveness 1 1 (hlc.MkLegacyTimestamp MaxInt64 0) false 0)))
            1)
    with (hlc.MkTimestamp MinInt64 0) in Hdead.
  unfold hlc.strictly_earlier, MinInt64, MaxInt64 in Hlive, Hdead.
  simpl in Hlive, Hdead. lia.
Qed.

(** C7, amended. With a threshold [T > 0] for which the wall time of the
    expiration [E] plus [T] is still a 64-bit integer, [IsDead(now, T)]
    holds exactly when [now] is not earlier than [E + T]; and some [now]
    with [E <= now < E + T] is neither live nor dead, so that [IsDead] is
    not the negation of [IsLive]. *)
Theorem IsDead_grace_window (l : Liveness) (T : Z) :
  0 < T ->
  in_int64 (hlc.WallTime (hlc.ToTimestamp (Expiration l)) + T) ->
  (forall now : hlc.Timestamp,
      IsDead l now T = true
      <-> ~ hlc.strictly_earlier now (hlc.plus (hlc.ToTimestamp (Expiration l)) T))
  /\ (exists now : hlc.Timestamp,
         hlc.not_later (hlc.ToTimestamp (Expiration l)) now
         /\ hlc.strictly_earlier now (hlc.plus (hlc.ToTimestamp (Expiration l)) T)
         /\ IsLive l now = false
         /\ IsDead l now T = false
         /\ IsDead l now T <> negb (IsLive l now)).
Proof.
  intros HT Hr. split.
  - intros now. now apply IsDead_iff_not_earlier_exact.
  - exists (hlc.ToTimestamp (Expiration l)).
    assert (Hlive : IsLive l (hlc.ToTimestamp (Expiration l)) = false)
      by (unfold IsLive; apply Less_irrefl).
    assert (Hdead : IsDead l (hlc.ToTimestamp (Expiration l)) T = false).
    { apply not_true_is_false. rewrite IsDead_iff_not_earlier_exact by assumption.
      intros Hn. apply Hn. now apply plus_later. }
    split; [right; reflexivity |].
    split; [now apply plus_later |].
    split; [exact Hlive |].
    split; [exact Hdead |].
    rewrite Hlive, Hdead. discriminate.
Qed.

Lemma IsDead_grace_window_witness :
  (forall now : hlc.Timestamp,
      IsDead (MkLiveness 1 1 (hlc.MkLegacyTimestamp 100 3) false 0) now 5 = true
      <-> ~ hlc.strictly_earlier now (hlc.MkTimestamp 105 3))
  /\ (exists now : hlc.Timestamp,
         hlc.not_later (hlc.MkTimestamp 100 3) now
         /\ hlc.strictly_earlier now (hlc.MkTimestamp 105 3)
         /\ IsLive (MkLiveness 1 1 (hlc.MkLegacyTimestamp 100 3) false 0) now = false
         /\ IsDead (MkLiveness 1 1 (hlc.MkLegacyTimestamp 100 3) false 0) now 5 = false
         /\ IsDead (MkLiveness 1 1 (hlc.MkLegacyTimestamp 100 3) false 0) now 5
            <> negb (IsLive (MkLiveness 1 1 (hlc.MkLegacyTimestamp 100 3) false 0) now)).
Proof.
  apply (IsDead_grace_window
           (MkLiveness 1 1 (hlc.MkLegacyTimestamp 100 3) false 0) 5).
  - lia.
  - unfold in_int64, MinInt64, MaxInt64. simpl. lia.
Defined.

(** ** The membership state machine *)

Lemma Liveness_zero_fields (old : Liveness) :
  old = Liveness_zero
  <-> NodeID old = 0 /\ Epoch old = 0
      /\ Expiration old = hlc.MkLegacyTimestamp 0 0
      /\ Draining old = false /\ Membership old = MembershipStatus_ACTIVE.
Proof.
  unfold Liveness_zero, MembershipStatus_ACTIVE. destruct old; simpl. split.
  - intros [= -> -> -> -> ->]. auto.
  - intros (-> & -> & -> & -> & ->). reflexivity.
Qed.

Lemma not_active_not_zero (old : Liveness) :
  Membership old <> MembershipStatus_ACTIVE -> Liveness_eqb old Liveness_zero = false.
Proof.
  intros H. apply Liveness_eqb_neq. intros E.
  apply Liveness_zero_fields in E. tauto.
Qed.

(** What [ValidateTransition] does past the emptiness check. *)
Lemma ValidateTransition_nonempty (old : Liveness) (newStatus : MembershipStatus) :
  old <> Liveness_zero ->
  ValidateTransition old newStatus =
    if Membership old =? newStatus then Return (false, None)
    else if Decommissioned (Membership old) && Decommissioning newStatus then
      Return (false, None)
    else if Active newStatus && negb (Decommissioning (Membership old)) then
      s ← MembershipStatus_String (Membership old);
      Return (false, Some (status_Error codes.FailedPrecondition
                             (recommission_message (NodeID old) s)))
    else if Decommissioned newStatus && negb (Decommissioning (Membership old)) then
      s ← MembershipStatus_String (Membership old);
      Return (false, Some (status_Error codes.FailedPrecondition
                             (decommission_message (NodeID old) s)))
    else Return (true, None).
Proof.
  intros H. apply Liveness_eqb_neq in H.
  unfold ValidateTransition. rewrite H. reflexivity.
Qed.

(** Rewrites with the facts at hand about the old status and evaluates the
    chain of tests of [ValidateTransition]. *)
Ltac validate old H :=
  rewrite (ValidateTransition_nonempty old) by
    (first [assumption
           | apply Liveness_eqb_neq, not_active_not_zero; rewrite H; discriminate]);
  rewrite H; reflexivity.

(** C3. Recommissioning: towards [Active], an old record that is
    [Decommissioned] is rejected, with [changed] false and an error of code
    failed-precondition whose message spells the node id and the status
    found; an old record that is [Decommissioning] is accepted.  (Neither
    status is the zero one, so such a record is never the empty record.) *)
Theorem ValidateTransition_recommission (old : Liveness) :
  (Membership old = MembershipStatus_DECOMMISSIONED ->
   ValidateTransition old MembershipStatus_ACTIVE
   = Return (false,
             Some (status_Error codes.FailedPrecondition
                     ("can only recommission a decommissioning node; n"
                        ++ fmt_d (NodeID old)
                        ++ " found to be decommissioned")%string)))
  /\ (Membership old = MembershipStatus_DECOMMISSIONING ->
      ValidateTransition old MembershipStatus_ACTIVE = Return (true, None)).
Proof.
  split; intros H; validate old H.
Qed.

Lemma ValidateTransition_recommission_witness :
  ValidateTransition
    (MkLiveness 7 3 (hlc.MkLegacyTimestamp 100 0) false MembershipStatus_DECOMMISSIONED)
    MembershipStatus_ACTIVE
  = Return (false,
            Some (status_Error codes.FailedPrecondition
                    "can only recommission a decommissioning node; n7 found to be decommissioned"))
  /\ ValidateTransition
       (MkLiveness 7 3 (hlc.MkLegacyTimestamp 100 0) false MembershipStatus_DECOMMISSIONING)
       MembershipStatus_ACTIVE
     = Return (true, None).
Proof.
  split.
  - apply (ValidateTransition_recommission
             (MkLiveness 7 3 (hlc.MkLegacyTimestamp 100 0) false
                         MembershipStatus_DECOMMISSIONED)).
    reflexivity.
  - apply (ValidateTransition_recommission
             (MkLiveness 7 3 (hlc.MkLegacyTimestamp 100 0) false
                         MembershipStatus_DECOMMISSIONING)).
    reflexivity.
Defined.

(** C4, as stated, fails on the code: towards [Decommissioned], an old
    record that is itself [Decommissioned] is not [Decommissioning], and
    yet it is no error but the no-op of an unchanged status. *)
Lemma ValidateTransition_skip_level_counterexample :
  MkLiveness 1 1 (hlc.MkLegacyTimestamp 100 0) false MembershipStatus_DECOMMISSIONED
    <> Liveness_zero
  /\ Membership (MkLiveness 1 1 (hlc.MkLegacyTimestamp 100 0) false
                            MembershipStatus_DECOMMISSIONED)
     <> MembershipStatus_DECOMMISSIONING
  /\ ValidateTransition
       (MkLiveness 1 1 (hlc.MkLegacyTimestamp 100 0) false MembershipStatus_DECOMMISSIONED)
       MembershipStatus_DECOMMISSIONED
     = Return (false, None).
Proof.
  split; [discriminate |]. split; [discriminate | reflexivity].
Qed.

(** C4, amended. For a non-empty old record: from [Active] towards
    [Decommissioning], and from [Decommissioning] towards [Decommissioned],
    the transition is accepted; from [Active] towards [Decommissioned] it
    is rejected, with [changed] false and an error of code
    failed-precondition whose message spells the node id and the status
    found. *)
Theorem ValidateTransition_decommission_path (old : Liveness) :
  old <> Liveness_zero ->
  (Membership old = MembershipStatus_ACTIVE ->
   ValidateTransition old MembershipStatus_DECOMMISSIONING = Return (true, None))
  /\ (Membership old = MembershipStatus_DECOMMISSIONING ->
      ValidateTransition old MembershipStatus_DECOMMISSIONED = Return (true, None))
  /\ (Membership old = MembershipStatus_ACTIVE ->
      ValidateTransition old MembershipStatus_DECOMMISSIONED
      = Return (false,
                Some (status_Error codes.FailedPrecondition
                        ("can only fully decommission an already decommissioning node; n"
                           ++ fmt_d (NodeID old)
                           ++ " found to be active")%string))).
Proof.
  intros Hne. repeat split; intros H; validate old H.
Qed.

Lemma ValidateTransition_decommission_path_witness :
  ValidateTransition
    (MkLiveness 4 1 (hlc.MkLegacyTimestamp 100 0) false MembershipStatus_ACTIVE)
    MembershipStatus_DECOMMISSIONING
  = Return (true, None)
  /\ ValidateTransition
       (MkLiveness 4 1 (hlc.MkLegacyTimestamp 100 0) false MembershipStatus_DECOMMISSIONING)
       MembershipStatus_DECOMMISSIONED
     = Return (true, None)
  /\ ValidateTransition
       (MkLiveness 4 1 (hlc.MkLegacyTimestamp 100 0) false MembershipStatus_ACTIVE)
       MembershipStatus_DECOMMISSIONED
     = Return (false,
               Some (status_Error codes.FailedPrecondition
                       "can only fully decommission an already decommissioning node; n4 found to be active")).
Proof.
  split; [| split].
  - apply (ValidateTransition_decommission_path
             (MkLiveness 4 1 (hlc.MkLegacyTimestamp 100 0) false MembershipStatus_ACTIVE));
      [discriminate | reflexivity].
  - apply (ValidateTransition_decommission_path
             (MkLiveness 4 1 (hlc.MkLegacyTimestamp 100 0) false
                         MembershipStatus_DECOMMISSIONING));
      [discriminate | reflexivity].
  - apply (ValidateTransition_decommission_path
             (MkLiveness 4 1 (hlc.MkLegacyTimestamp 100 0) false MembershipStatus_ACTIVE));
      [discriminate | reflexivity].
Defined.

(** C5. No-ops: on a non-empty old record the result is [(false, nil)] when
    the new status is the old one, whichever status that is, and when a
    [Decommissioned] node is asked to be [Decommissioning]. *)
Theorem ValidateTransition_noop (old : Liveness) (newStatus : MembershipStatus) :
  old <> Liveness_zero ->
  newStatus = Membership old
  \/ (Membership old = MembershipStatus_DECOMMISSIONED
      /\ newStatus = MembershipStatus_DECOMMISSIONING) ->
  ValidateTransition old newStatus = Return (false, None).
Proof.
  intros Hne [-> | [Hold ->]].
  - rewrite (ValidateTransition_nonempty old) by assumption.
    rewrite Z.eqb_refl. reflexivity.
  - validate old Hold.
Qed.

Lemma ValidateTransition_noop_witness :
  ValidateTransition
    (MkLiveness 2 5 (hlc.MkLegacyTimestamp 100 0) true MembershipStatus_DECOMMISSIONED)
    MembershipStatus_DECOMMISSIONING
  = Return (false, None)
  /\ ValidateTransition
       (MkLiveness 2 0 (hlc.MkLegacyTimestamp 0 0) false MembershipStatus_ACTIVE)
       MembershipStatus_ACTIVE
     = Return (false, None).
Proof.
  split.
  - apply (ValidateTransition_noop
             (MkLiveness 2 5 (hlc.MkLegacyTimestamp 100 0) true
                         MembershipStatus_DECOMMISSIONED)
             MembershipStatus_DECOMMISSIONING);
      [discriminate | right; split; reflexivity].
  - apply (ValidateTransition_noop
             (MkLiveness 2 0 (hlc.MkLegacyTimestamp 0 0) false MembershipStatus_ACTIVE)
             MembershipStatus_ACTIVE);
      [discriminate | left; reflexivity].
Defined.

(** ** The empty record *)

Lemma MembershipStatus_String_cases (c : MembershipStatus) :
  (exists s, MembershipStatus_String c = Return s)
  \/ MembershipStatus_String c = Panic unknown_membership_status.
Proof.
  unfold MembershipStatus_String.
  repeat match goal with
    | |- context [?x =? ?y] => destruct (x =? y); [left; eexists; reflexivity |]
    end.
  right. reflexivity.
Qed.

Lemma ValidateTransition_nonempty_no_assertion
  (old : Liveness) (newStatus : MembershipStatus) :
  old <> Liveness_zero -> assertion_failed (ValidateTransition old newStatus) = false.
Proof.
  intros Hne. rewrite (ValidateTransition_nonempty old) by assumption.
  destruct (MembershipStatus_String_cases (Membership old)) as [[s ->] | ->];
    repeat match goal with
      | |- context [if ?b then _ else _] => destruct b
      end;
    reflexivity.
Qed.

(** A status outside the enumeration cannot be rendered: a rejection that
    has to spell it panics instead of returning. *)
Lemma ValidateTransition_unknown_status_panics (old : Liveness) :
  ~ valid_membership (Membership old) ->
  ValidateTransition old MembershipStatus_ACTIVE = Panic unknown_membership_status
  /\ ValidateTransition old MembershipStatus_DECOMMISSIONED
     = Panic unknown_membership_status.
Proof.
  unfold valid_membership. intros H.
  assert (Hne : old <> Liveness_zero).
  { intros E. apply Liveness_zero_fields in E. tauto. }
  rewrite !(ValidateTransition_nonempty old) by assumption.
  unfold MembershipStatus_String, Decommissioned, Decommissioning, Active.
  destruct (Z.eqb_spec (Membership old) MembershipStatus_ACTIVE); [tauto |].
  destruct (Z.eqb_spec (Membership old) MembershipStatus_DECOMMISSIONING); [tauto |].
  destruct (Z.eqb_spec (Membership old) MembershipStatus_DECOMMISSIONED); [tauto |].
  split; reflexivity.
Qed.

(** C8. On the empty record, whatever the new status is, the result is
    [changed] false with the assertion-failure error, which is not of the
    failed-precondition kind. *)
Theorem ValidateTransition_empty (newStatus : MembershipStatus) :
  ValidateTransition Liveness_zero newStatus = Return (false, Some empty_record_error)
  /\ HasAssertionFailure empty_record_error = true
  /\ status_Code empty_record_error <> codes.FailedPrecondition.
Proof.
  split; [reflexivity |]. split; [reflexivity | discriminate].
Qed.

(** C10, as stated, fails on the code: a record with [Epoch] zero,
    [Membership] active, [Draining] false and a zero [Expiration] is not
    the empty record when its node id is set, and it is validated as any
    other record. *)
Lemma ValidateTransition_fresh_record_counterexample :
  Epoch (MkLiveness 1 0 (hlc.MkLegacyTimestamp 0 0) false MembershipStatus_ACTIVE) = 0
  /\ Membership (MkLiveness 1 0 (hlc.MkLegacyTimestamp 0 0) false MembershipStatus_ACTIVE)
     = MembershipStatus_ACTIVE
  /\ Draining (MkLiveness 1 0 (hlc.MkLegacyTimestamp 0 0) false MembershipStatus_ACTIVE)
     = false
  /\ Expiration (MkLiveness 1 0 (hlc.MkLegacyTimestamp 0 0) false MembershipStatus_ACTIVE)
     = hlc.MkLegacyTimestamp 0 0
  /\ MkLiveness 1 0 (hlc.MkLegacyTimestamp 0 0) false MembershipStatus_ACTIVE
     <> Liveness_zero
  /\ ValidateTransition
       (MkLiveness 1 0 (hlc.MkLegacyTimestamp 0 0) false MembershipStatus_ACTIVE)
       MembershipStatus_DECOMMISSIONING
     = Return (true, None).
Proof.
  repeat (split; [first [reflexivity | discriminate] |]). reflexivity.
Qed.

(** C10, amended. The emptiness test is equality of the whole struct with
    the zero record: the assertion failure is returned exactly when
    [NodeID], [Epoch], [Expiration], [Draining] and [Membership] all hold
    their zero value.  So a record with node id zero, epoch zero, active,
    not draining and with a zero expiration is the empty record and gets
    the assertion failure, and a record that differs from zero in at least
    one field passes the test. *)
Theorem ValidateTransition_empty_iff (old : Liveness) (newStatus : MembershipStatus) :
  (assertion_failed (ValidateTransition old newStatus) = true
   <-> NodeID old = 0 /\ Epoch old = 0
       /\ Expiration old = hlc.MkLegacyTimestamp 0 0
       /\ Draining old = false /\ Membership old = MembershipStatus_ACTIVE)
  /\ (NodeID old = 0 /\ Epoch old = 0
      /\ Expiration old = hlc.MkLegacyTimestamp 0 0
      /\ Draining old = false /\ Membership old = MembershipStatus_ACTIVE ->
      ValidateTransition old newStatus = Return (false, Some empty_record_error))
  /\ (NodeID old <> 0 \/ Epoch old <> 0
      \/ Expiration old <> hlc.MkLegacyTimestamp 0 0
      \/ Draining old <> false \/ Membership old <> MembershipStatus_ACTIVE ->
      assertion_failed (ValidateTransition old newStatus) = false).
Proof.
  rewrite <- Liveness_zero_fields. split; [| split].
  - split.
    + intros H.
      destruct (Liveness_eqb old Liveness_zero) eqn:E.
      * now apply Liveness_eqb_eq.
      * apply Liveness_eqb_neq in E.
        rewrite ValidateTransition_nonempty_no_assertion in H by assumption.
        discriminate.
    + intros ->. reflexivity.
  - intros ->. reflexivity.
  - intros H. apply ValidateTransition_nonempty_no_assertion.
    intros E. apply Liveness_zero_fields in E. tauto.
Qed.

Lemma ValidateTransition_empty_iff_witness :
  ValidateTransition
    (MkLiveness 0 0 (hlc.MkLegacyTimestamp 0 0) false MembershipStatus_ACTIVE)
    MembershipStatus_DECOMMISSIONING
  = Return (false, Some empty_record_error)
  /\ assertion_failed
       (ValidateTransition
          (MkLiveness 0 1 (hlc.MkLegacyTimestamp 0 0) false MembershipStatus_ACTIVE)
          MembershipStatus_DECOMMISSIONING)
     = false
  /\ assertion_failed
       (ValidateTransition
          (MkLiveness 0 0 (hlc.MkLegacyTimestamp 0 1) false MembershipStatus_ACTIVE)
          MembershipStatus_DECOMMISSIONING)
     = false.
Proof.
  split; [| split].
  - apply (ValidateTransition_empty_iff
             (MkLiveness 0 0 (hlc.MkLegacyTimestamp 0 0) false MembershipStatus_ACTIVE)
             MembershipStatus_DECOMMISSIONING).
    repeat split.
  - apply (ValidateTransition_empty_iff
             (MkLiveness 0 1 (hlc.MkLegacyTimestamp 0 0) false MembershipStatus_ACTIVE)
             MembershipStatus_DECOMMISSIONING).
    right. left. discriminate.
  - apply (ValidateTransition_empty_iff
             (MkLiveness 0 0 (hlc.MkLegacyTimestamp 0 1) false MembershipStatus_ACTIVE)
             MembershipStatus_DECOMMISSIONING).
    right. right. left. discriminate.
Defined.

(** ** The liveness snapshot *)

Lemma membership_ok_valid (c : MembershipStatus) :
  membership_ok c = true <-> valid_membership c.
Proof.
  unfold membership_ok, MembershipStatus_String, valid_membership.
  destruct (Z.eqb_spec c MembershipStatus_ACTIVE); [tauto |].
  destruct (Z.eqb_spec c MembershipStatus_DECOMMISSIONING); [tauto |].
  destruct (Z.eqb_spec c MembershipStatus_DECOMMISSIONED); [tauto |].
  split; [discriminate | tauto].
Qed.

(** The construction succeeds exactly when every record passes the
    enumeration check, and then it is the map read off the list. *)
Lemma BuildIsLiveMap_result (records : list (roachpb.NodeID * Liveness)) (now : hlc.Timestamp) :
  BuildIsLiveMap records now =
    if forallb (fun p => membership_ok (Membership p.2)) records
    then Return (list_to_map (prod_map id (snapshot_entry now) <$> records))
    else Panic unknown_membership_status.
Proof.
  induction records as [| [nid l] rest IH]; [reflexivity |].
  cbn [BuildIsLiveMap forallb snd]. rewrite IH. unfold membership_ok.
  destruct (MembershipStatus_String_cases (Membership l)) as [[s ->] | ->];
    [| reflexivity].
  cbn. destruct (forallb _ rest); reflexivity.
Qed.

Lemma same_pairs_checks (rs1 rs2 : list (roachpb.NodeID * Liveness)) (f : roachpb.NodeID * Liveness -> bool) :
  same_pairs rs1 rs2 -> forallb f rs1 = forallb f rs2.
Proof.
  intros Hs. apply eq_true_iff_eq. rewrite !forallb_forall.
  split; intros H p Hp; apply H; apply list_elem_of_In;
    apply list_elem_of_In in Hp; now apply Hs.
Qed.

Lemma one_record_per_node_same_pairs (rs1 rs2 : list (roachpb.NodeID * Liveness)) :
  same_pairs rs1 rs2 -> one_record_per_node rs1 -> one_record_per_node rs2.
Proof.
  intros Hs H1 nid l1 l2 Ha Hb. apply (H1 nid); now apply Hs.
Qed.

Lemma snapshot_lookup (records : list (roachpb.NodeID * Liveness)) (now : hlc.Timestamp)
  (nid : roachpb.NodeID) (e : IsLiveMapEntry) :
  one_record_per_node records ->
  (list_to_map (prod_map id (snapshot_entry now) <$> records) : IsLiveMap) !! nid = Some e
  <-> exists l, (nid, l) ∈ records /\ e = snapshot_entry now l.
Proof.
  intros Hone. split.
  - intros H. apply elem_of_list_to_map_2, list_elem_of_fmap in H.
    destruct H as ([k l] & [= -> ->] & Hin). eauto.
  - intros (l & Hin & ->). apply elem_of_list_to_map_1'.
    + intros y Hy. apply list_elem_of_fmap in Hy.
      destruct Hy as ([k l'] & [= <- ->] & Hin').
      now rewrite (Hone _ _ _ Hin Hin').
    + apply list_elem_of_fmap. exists (nid, l). split; [reflexivity | assumption].
Qed.




(** * Further properties of the code *)

(** Case analysis on every comparison of statuses in the goal, with the
    constants of the enumeration spelled as integers. *)
Ltac status_cases :=
  unfold MembershipStatus_String, Decommissioning, Decommissioned, Active,
    valid_membership, valid_edge,
    MembershipStatus_ACTIVE, MembershipStatus_DECOMMISSIONING,
    MembershipStatus_DECOMMISSIONED, MembershipStatus in *;
  repeat match goal with
    | |- context [?x =? ?y] => destruct (Z.eqb_spec x y); simpl
    end.

(** ** Rendering of a membership status *)

(** X1. Two statuses render alike exactly when they are the same status or
    are both outside the enumeration: the three texts are pairwise
    distinct, and every other value ends in the same panic. *)
Theorem MembershipStatus_String_eq_iff (c1 c2 : MembershipStatus) :
  MembershipStatus_String c1 = MembershipStatus_String c2
  <-> c1 = c2 \/ (~ valid_membership c1 /\ ~ valid_membership c2).
Proof.
  status_cases; split; intros H;
    first [ discriminate H
          | left; lia
          | right; lia
          | reflexivity
          | exfalso; lia ].
Qed.

(** X2. A status is rendered exactly when it is one of the enumeration;
    every other value panics with the fixed message, and the three
    shorthands recognise exactly the values that are rendered. *)
Theorem MembershipStatus_String_returns_iff_valid (c : MembershipStatus) :
  (valid_membership c <-> exists s, MembershipStatus_String c = Return s)
  /\ (~ valid_membership c <-> MembershipStatus_String c = Panic unknown_membership_status)
  /\ (valid_membership c <-> Active c || Decommissioning c || Decommissioned c = true).
Proof.
  status_cases; repeat split;
    first [ intros _; eexists; reflexivity
          | intros _; lia
          | intros [s Hs]; discriminate Hs
          | intros H; exfalso; lia
          | intros H; discriminate H
          | intros H; exfalso; apply H; lia
          | intros H; lia
          | reflexivity ].
Qed.

(** ** The transition validator *)

(** X3. Among the statuses of the enumeration, and on a non-empty old
    record, [changed] is true on exactly the three transitions the doc
    comment lists; every other request returns with [changed] false. *)
Theorem ValidateTransition_accepted_edges (old : Liveness) (newStatus : MembershipStatus) :
  old <> Liveness_zero ->
  valid_membership (Membership old) ->
  valid_membership newStatus ->
  (valid_edge (Membership old) newStatus
   /\ ValidateTransition old newStatus = Return (true, None))
  \/ (~ valid_edge (Membership old) newStatus
      /\ exists e, ValidateTransition old newStatus = Return (false, e)).
Proof.
  intros Hne Hold Hnew.
  rewrite (ValidateTransition_nonempty old) by assumption.
  status_cases;
    first [ left; split; [lia | reflexivity]
          | right; split; [lia | eexists; reflexivity]
          | exfalso; lia ].
Qed.

Lemma ValidateTransition_accepted_edges_witness :
  (valid_edge MembershipStatus_DECOMMISSIONING MembershipStatus_ACTIVE
   /\ ValidateTransition
        (MkLiveness 3 2 (hlc.MkLegacyTimestamp 100 0) true MembershipStatus_DECOMMISSIONING)
        MembershipStatus_ACTIVE
      = Return (true, None))
  \/ (~ valid_edge MembershipStatus_DECOMMISSIONING MembershipStatus_ACTIVE
      /\ exists e,
          ValidateTransition
            (MkLiveness 3 2 (hlc.MkLegacyTimestamp 100 0) true
                        MembershipStatus_DECOMMISSIONING)
            MembershipStatus_ACTIVE
          = Return (false, e)).
Proof.
  apply (ValidateTransition_accepted_edges
           (MkLiveness 3 2 (hlc.MkLegacyTimestamp 100 0) true
                       MembershipStatus_DECOMMISSIONING)
           MembershipStatus_ACTIVE).
  - discriminate.
  - right. left. reflexivity.
  - left. reflexivity.
Defined.

(** X4. Whenever an error is returned, [changed] is false; the error is
    the assertion failure exactly on the empty record, and on any other
    record it is a status of code failed-precondition. *)
Theorem ValidateTransition_error_shape
  (old : Liveness) (newStatus : MembershipStatus) (changed : bool) (e : error) :
  ValidateTransition old newStatus = Return (changed, Some e) ->
  changed = false
  /\ ((old = Liveness_zero /\ e = empty_record_error)
      \/ (old <> Liveness_zero
          /\ status_Code e = codes.FailedPrecondition
          /\ HasAssertionFailure e = false)).
Proof.
  destruct (Liveness_eqb old Liveness_zero) eqn:E.
  - apply Liveness_eqb_eq in E. subst old.
    intros [= <- <-]. split; [reflexivity | left; split; reflexivity].
  - apply Liveness_eqb_neq in E.
    rewrite (ValidateTransition_nonempty old) by assumption.
    destruct (MembershipStatus_String_cases (Membership old)) as [[s ->] | ->];
      repeat match goal with
        | |- context [if ?b then _ else _] => destruct b
        end;
      cbn; intros H; try discriminate H;
      injection H as <- <-; (split; [reflexivity | right; repeat split; assumption]).
Qed.

Lemma ValidateTransition_error_shape_witness :
  false = false
  /\ ((MkLiveness 5 1 (hlc.MkLegacyTimestamp 100 0) false MembershipStatus_ACTIVE
       = Liveness_zero
       /\ status_Error codes.FailedPrecondition
            (decommission_message 5 "active") = empty_record_error)
      \/ (MkLiveness 5 1 (hlc.MkLegacyTimestamp 100 0) false MembershipStatus_ACTIVE
          <> Liveness_zero
          /\ status_Code (status_Error codes.FailedPrecondition
                            (decommission_message 5 "active"))
             = codes.FailedPrecondition
          /\ HasAssertionFailure (status_Error codes.FailedPrecondition
                                    (decommission_message 5 "active"))
             = false)).
Proof.
  apply (ValidateTransition_error_shape
           (MkLiveness 5 1 (hlc.MkLegacyTimestamp 100 0) false MembershipStatus_ACTIVE)
           MembershipStatus_DECOMMISSIONED).
  reflexivity.
Defined.

(** X5. The validator panics exactly when the status of the old record is
    outside the enumeration and the new status is [Active] or
    [Decommissioned], the two requests whose rejection spells the old
    status; the panic is that of the rendering. *)
Theorem ValidateTransition_panics_iff (old : Liveness) (newStatus : MembershipStatus) :
  ((exists msg, ValidateTransition old newStatus = Panic msg)
   <-> ~ valid_membership (Membership old)
       /\ (newStatus = MembershipStatus_ACTIVE
           \/ newStatus = MembershipStatus_DECOMMISSIONED))
  /\ (forall msg, ValidateTransition old newStatus = Panic msg ->
                  msg = unknown_membership_status).
Proof.
  destruct (Liveness_eqb old Liveness_zero) eqn:E.
  - apply Liveness_eqb_eq in E. subst old. split.
    + split; [intros [msg H]; discriminate H |].
      intros [H _]. exfalso. apply H. left. reflexivity.
    + intros msg H. discriminate H.
  - apply Liveness_eqb_neq in E.
    rewrite (ValidateTransition_nonempty old) by assumption.
    status_cases; split;
      first [ split;
              [ intros [msg H]; first [discriminate H | split; lia]
              | intros [H1 H2]; first [eexists; reflexivity | exfalso; lia] ]
            | intros msg H; first [discriminate H | injection H as <-; reflexivity] ].
Qed.

(** X6. A request for [Decommissioning] on a non-empty record is never an
    error, whatever the old status is, recognised or not: it is a no-op
    from [Decommissioning] and from [Decommissioned], and accepted from
    anything else. *)
Theorem ValidateTransition_to_decommissioning (old : Liveness) :
  old <> Liveness_zero ->
  ValidateTransition old MembershipStatus_DECOMMISSIONING
  = Return (negb (Decommissioning (Membership old) || Decommissioned (Membership old)),
            None).
Proof.
  intros Hne. rewrite (ValidateTransition_nonempty old) by assumption.
  status_cases; first [reflexivity | exfalso; lia].
Qed.

Lemma ValidateTransition_to_decommissioning_witness :
  ValidateTransition (MkLiveness 1 1 (hlc.MkLegacyTimestamp 100 0) false 7)
                     MembershipStatus_DECOMMISSIONING
  = Return (true, None).
Proof.
  apply (ValidateTransition_to_decommissioning
           (MkLiveness 1 1 (hlc.MkLegacyTimestamp 100 0) false 7)).
  discriminate.
Defined.

(** X7. The new status is not checked against the enumeration: a request
    for a value outside it, on a non-empty record of another status, is
    accepted with [changed] true and no error. *)
Theorem ValidateTransition_unrecognised_new_status
  (old : Liveness) (newStatus : MembershipStatus) :
  old <> Liveness_zero ->
  ~ valid_membership newStatus ->
  Membership old <> newStatus ->
  ValidateTransition old newStatus = Return (true, None).
Proof.
  intros Hne Hnew Hdiff.
  rewrite (ValidateTransition_nonempty old) by assumption.
  status_cases; first [reflexivity | exfalso; lia].
Qed.

Lemma ValidateTransition_unrecognised_new_status_witness :
  ValidateTransition
    (MkLiveness 1 1 (hlc.MkLegacyTimestamp 100 0) false MembershipStatus_DECOMMISSIONED)
    7
  = Return (true, None).
Proof.
  apply (ValidateTransition_unrecognised_new_status
           (MkLiveness 1 1 (hlc.MkLegacyTimestamp 100 0) false
                       MembershipStatus_DECOMMISSIONED)
           7).
  - discriminate.
  - unfold valid_membership. intros [H | [H | H]]; discriminate H.
  - discriminate.
Defined.

(** X8. On non-empty records the outcome depends on the node id and the
    membership status only: [Epoch], [Expiration] and [Draining] play no
    part in the validation. *)
Theorem ValidateTransition_ignores_other_fields
  (old old' : Liveness) (newStatus : MembershipStatus) :
  old <> Liveness_zero ->
  old' <> Liveness_zero ->
  NodeID old = NodeID old' ->
  Membership old = Membership old' ->
  ValidateTransition old newStatus = ValidateTransition old' newStatus.
Proof.
  intros Hne Hne' Hid Hm.
  rewrite (ValidateTransition_nonempty old), (ValidateTransition_nonempty old')
    by assumption.
  rewrite Hid, Hm. reflexivity.
Qed.

Lemma ValidateTransition_ignores_other_fields_witness :
  ValidateTransition
    (MkLiveness 6 1 (hlc.MkLegacyTimestamp 100 0) false MembershipStatus_DECOMMISSIONED)
    MembershipStatus_ACTIVE
  = ValidateTransition
      (MkLiveness 6 9 (hlc.MkLegacyTimestamp 0 4) true MembershipStatus_DECOMMISSIONED)
      MembershipStatus_ACTIVE.
Proof.
  apply (ValidateTransition_ignores_other_fields
           (MkLiveness 6 1 (hlc.MkLegacyTimestamp 100 0) false
                       MembershipStatus_DECOMMISSIONED)
           (MkLiveness 6 9 (hlc.MkLegacyTimestamp 0 4) true
                       MembershipStatus_DECOMMISSIONED)
           MembershipStatus_ACTIVE);
    first [discriminate | reflexivity].
Defined.

(** ** The recency order, and liveness along it *)

(** X9. The sign of [Compare] is read off the two keys: [-1] exactly when
    the receiver has the lower epoch, or the same epoch and the earlier
    expiration; [+1] exactly in the mirrored case; [0] exactly when epoch
    and both components of the expiration agree. *)
Theorem Compare_sign (a b : Liveness) :
  (Compare a b = -1 <-> older a b)
  /\ (Compare a b = 0 <-> same_age a b)
  /\ (Compare a b = 1 <-> older b a).
Proof.
  pose proof (Compare_spec a b) as S.
  unfold older, same_age, hlc.strictly_earlier in *. simpl in *.
  repeat split; intros; lia.
Qed.

(** X10. At one epoch a record that is not older keeps what the other
    proves: if [Compare(a, b) <= 0] and [a] is live at [now] then so is
    [b]; and, for a threshold that overflows on neither expiration, if
    [b] is dead at [now] then so is [a]. *)
Theorem Compare_newer_stays_live
  (a b : Liveness) (now : hlc.Timestamp) (threshold : Z) :
  Epoch a = Epoch b ->
  Compare a b <= 0 ->
  in_int64 (hlc.WallTime (hlc.ToTimestamp (Expiration a)) + threshold) ->
  in_int64 (hlc.WallTime (hlc.ToTimestamp (Expiration b)) + threshold) ->
  (IsLive a now = true -> IsLive b now = true)
  /\ (IsDead b now threshold = true -> IsDead a now threshold = true).
Proof.
  intros He Hc Ha Hb.
  pose proof (Compare_spec a b) as S.
  rewrite !IsDead_iff_not_earlier_exact by assumption.
  unfold IsLive. rewrite !Less_strictly_earlier.
  unfold older, same_age, hlc.strictly_earlier in *. simpl in *.
  split; intros H; lia.
Qed.

Lemma Compare_newer_stays_live_witness :
  IsLive (MkLiveness 1 2 (hlc.MkLegacyTimestamp 109 0) false 0) (hlc.MkTimestamp 90 0)
  = true
  /\ IsDead (MkLiveness 1 2 (hlc.MkLegacyTimestamp 100 0) false 0)
            (hlc.MkTimestamp 120 0) 5 = true.
Proof.
  split.
  - apply (Compare_newer_stays_live
             (MkLiveness 1 2 (hlc.MkLegacyTimestamp 100 0) false 0)
             (MkLiveness 1 2 (hlc.MkLegacyTimestamp 109 0) false 0)
             (hlc.MkTimestamp 90 0) 5);
      first [ reflexivity
            | vm_compute; discriminate
            | unfold in_int64, MinInt64, MaxInt64; simpl; lia ].
  - apply (Compare_newer_stays_live
             (MkLiveness 1 2 (hlc.MkLegacyTimestamp 100 0) false 0)
             (MkLiveness 1 2 (hlc.MkLegacyTimestamp 109 0) false 0)
             (hlc.MkTimestamp 120 0) 5);
      first [ reflexivity
            | vm_compute; discriminate
            | unfold in_int64, MinInt64, MaxInt64; simpl; lia ].
Defined.

(** X11. Time only moves a record away from live and towards dead: when
    [now] is not later than [now'], a record live at [now'] is live at
    [now], and a record dead at [now] is dead at [now']. *)
Theorem liveness_monotone_in_time
  (l : Liveness) (now now' : hlc.Timestamp) (threshold : Z) :
  hlc.not_later now now' ->
  (IsLive l now' = true -> IsLive l now = true)
  /\ (IsDead l now threshold = true -> IsDead l now' threshold = true).
Proof.
  intros Hle.
  rewrite !IsDead_iff_not_earlier.
  unfold IsLive. rewrite !Less_strictly_earlier.
  destruct Hle as [Hlt | ->]; [| tauto].
  unfold hlc.strictly_earlier in *. simpl in *.
  split; intros H; lia.
Qed.

Lemma liveness_monotone_in_time_witness :
  (IsLive (MkLiveness 1 2 (hlc.MkLegacyTimestamp 100 0) false 0) (hlc.MkTimestamp 95 1)
   = true ->
   IsLive (MkLiveness 1 2 (hlc.MkLegacyTimestamp 100 0) false 0) (hlc.MkTimestamp 95 0)
   = true)
  /\ (IsDead (MkLiveness 1 2 (hlc.MkLegacyTimestamp 100 0) false 0)
             (hlc.MkTimestamp 95 0) 5 = true ->
      IsDead (MkLiveness 1 2 (hlc.MkLegacyTimestamp 100 0) false 0)
             (hlc.MkTimestamp 95 1) 5 = true).
Proof.
  apply (liveness_monotone_in_time
           (MkLiveness 1 2 (hlc.MkLegacyTimestamp 100 0) false 0)
           (hlc.MkTimestamp 95 0) (hlc.MkTimestamp 95 1) 5).
  left. right. simpl. lia.
Defined.

(** X12. With a threshold that is not negative and does not overflow on
    the expiration, a record is never dead and live at once. *)
Theorem IsDead_not_IsLive (l : Liveness) (now : hlc.Timestamp) (threshold : Z) :
  0 <= threshold ->
  in_int64 (hlc.WallTime (hlc.ToTimestamp (Expiration l)) + threshold) ->
  IsDead l now threshold = true ->
  IsLive l now = false.
Proof.
  intros HT Hr Hdead. apply not_true_is_false. revert Hdead.
  rewrite IsDead_iff_not_earlier_exact by assumption.
  unfold IsLive. rewrite Less_strictly_earlier.
  unfold hlc.strictly_earlier. simpl. lia.
Qed.

Lemma IsDead_not_IsLive_witness :
  IsLive (MkLiveness 1 2 (hlc.MkLegacyTimestamp 100 0) false 0) (hlc.MkTimestamp 105 0)
  = false.
Proof.
  apply (IsDead_not_IsLive
           (MkLiveness 1 2 (hlc.MkLegacyTimestamp 100 0) false 0)
           (hlc.MkTimestamp 105 0) 5).
  - lia.
  - unfold in_int64, MinInt64, MaxInt64. simpl. lia.
  - reflexivity.
Defined.

(** X13. The threshold is a signed duration and its sign is not checked:
    with a negative one that does not overflow on the expiration, the
    record is dead and live at once at some time. *)
Theorem IsDead_negative_threshold (l : Liveness) (threshold : Z) :
  threshold < 0 ->
  in_int64 (hlc.WallTime (hlc.ToTimestamp (Expiration l)) + threshold) ->
  exists now : hlc.Timestamp,
    in_int64 (hlc.WallTime now)
    /\ IsLive l now = true /\ IsDead l now threshold = true.
Proof.
  intros HT Hr.
  exists (hlc.plus (hlc.ToTimestamp (Expiration l)) threshold).
  split; [exact Hr |]. split.
  - unfold IsLive. apply Less_strictly_earlier. left. simpl. lia.
  - apply IsDead_iff_not_earlier_exact; [assumption |].
    unfold hlc.strictly_earlier. lia.
Qed.

Lemma IsDead_negative_threshold_witness :
  exists now : hlc.Timestamp,
    in_int64 (hlc.WallTime now)
    /\ IsLive (MkLiveness 1 2 (hlc.MkLegacyTimestamp 100 0) false 0) now = true
    /\ IsDead (MkLiveness 1 2 (hlc.MkLegacyTimestamp 100 0) false 0) now (-5) = true.
Proof.
  apply (IsDead_negative_threshold
           (MkLiveness 1 2 (hlc.MkLegacyTimestamp 100 0) false 0) (-5)).
  - lia.
  - unfold in_int64, MinInt64, MaxInt64. simpl. lia.
Defined.

(** X14. Among thresholds that do not overflow on the expiration, a longer
    one declares fewer records dead: a record dead at [now] for a
    threshold is dead at [now] for every shorter one. *)
Theorem IsDead_threshold_monotone
  (l : Liveness) (now : hlc.Timestamp) (threshold threshold' : Z) :
  threshold <= threshold' ->
  in_int64 (hlc.WallTime (hlc.ToTimestamp (Expiration l)) + threshold) ->
  in_int64 (hlc.WallTime (hlc.ToTimestamp (Expiration l)) + threshold') ->
  IsDead l now threshold' = true ->
  IsDead l now threshold = true.
Proof.
  intros HT Hr Hr'. rewrite !IsDead_iff_not_earlier_exact by assumption.
  unfold hlc.strictly_earlier. simpl. lia.
Qed.

Lemma IsDead_threshold_monotone_witness :
  IsDead (MkLiveness 1 2 (hlc.MkLegacyTimestamp 100 0) false 0) (hlc.MkTimestamp 110 0) 5
  = true.
Proof.
  apply (IsDead_threshold_monotone
           (MkLiveness 1 2 (hlc.MkLegacyTimestamp 100 0) false 0)
           (hlc.MkTimestamp 110 0) 5 10).
  - lia.
  - unfold in_int64, MinInt64, MaxInt64. simpl. lia.
  - unfold in_int64, MinInt64, MaxInt64. simpl. lia.
  - reflexivity.
Defined.

(** ** Rendering of a record *)

Lemma append_cancel_l (p a b : string) : (p ++ a = p ++ b)%string -> a = b.
Proof.
  induction p as [| c p IH]; simpl; [tauto |].
  intros [= H]. now apply IH.
Qed.

(** X15. Rendering a record panics exactly when the record drains and its
    status is outside the enumeration; a record that does not drain is
    always rendered, whatever its status. *)
Theorem Liveness_String_panics_iff
  (render : hlc.LegacyTimestamp -> string) (l : Liveness) :
  ((exists msg, Liveness_String render l = Panic msg)
   <-> Draining l = true /\ ~ valid_membership (Membership l))
  /\ ((exists s, Liveness_String render l = Return s)
      <-> Draining l = false \/ valid_membership (Membership l)).
Proof.
  unfold Liveness_String.
  destruct (Draining l); status_cases; split; split;
    first [ intros [x H]; discriminate H
          | intros _; eexists; reflexivity
          | intros [x H]; first [split; [reflexivity | lia] | left; reflexivity | right; lia]
          | intros [H1 H2]; first [discriminate H1 | exfalso; lia]
          | intros [H | H]; first [discriminate H | exfalso; lia] ].
Qed.

(** X16. A status outside the enumeration goes unnoticed in the text of a
    record that does not drain: the record is rendered without suffix,
    exactly as the active record with the same node id, epoch and
    expiration. *)
Theorem Liveness_String_unrecognised_silent
  (render : hlc.LegacyTimestamp -> string) (l : Liveness) :
  Draining l = false ->
  ~ valid_membership (Membership l) ->
  Liveness_String render l
  = Liveness_String render
      (MkLiveness (NodeID l) (Epoch l) (Expiration l) false MembershipStatus_ACTIVE).
Proof.
  intros Hd Hv. unfold Liveness_String. rewrite Hd. simpl.
  status_cases; first [reflexivity | exfalso; lia].
Qed.

Lemma Liveness_String_unrecognised_silent_witness :
  Liveness_String (fun _ => "100,0"%string)
    (MkLiveness 4 2 (hlc.MkLegacyTimestamp 100 0) false 7)
  = Return "liveness(nid:4 epo:2 exp:100,0)"%string.
Proof.
  apply (Liveness_String_unrecognised_silent (fun _ => "100,0"%string)
           (MkLiveness 4 2 (hlc.MkLegacyTimestamp 100 0) false 7)).
  - reflexivity.
  - unfold valid_membership. intros [H | [H | H]]; discriminate H.
Defined.

(** X17. Among records of one node id, epoch and expiration whose status
    is in the enumeration, the text tells the draining flag and the
    status: two such records render alike exactly when they agree on
    both. *)
Theorem Liveness_String_tells_drain_and_membership
  (render : hlc.LegacyTimestamp -> string) (l l' : Liveness) :
  NodeID l = NodeID l' ->
  Epoch l = Epoch l' ->
  Expiration l = Expiration l' ->
  valid_membership (Membership l) ->
  valid_membership (Membership l') ->
  Liveness_String render l = Liveness_String render l'
  <-> Draining l = Draining l' /\ Membership l = Membership l'.
Proof.
  intros Hid He Hx Hv Hv'. unfold Liveness_String.
  rewrite Hid, He, Hx. split.
  - intros H.
    destruct Hv as [Hm | [Hm | Hm]], Hv' as [Hm' | [Hm' | Hm']];
      rewrite Hm, Hm' in H |- *;
      destruct (Draining l), (Draining l');
      first [ split; reflexivity
            | cbn in H; injection H as H;
              repeat apply append_cancel_l in H; discriminate H ].
  - intros [-> ->]. reflexivity.
Qed.

Lemma Liveness_String_tells_drain_and_membership_witness :
  Liveness_String (fun _ => "100,0"%string)
    (MkLiveness 4 2 (hlc.MkLegacyTimestamp 100 0) true MembershipStatus_ACTIVE)
  = Liveness_String (fun _ => "100,0"%string)
      (MkLiveness 4 2 (hlc.MkLegacyTimestamp 100 0) false MembershipStatus_DECOMMISSIONING)
  <-> true = false /\ MembershipStatus_ACTIVE = MembershipStatus_DECOMMISSIONING.
Proof.
  apply (Liveness_String_tells_drain_and_membership (fun _ => "100,0"%string)
           (MkLiveness 4 2 (hlc.MkLegacyTimestamp 100 0) true MembershipStatus_ACTIVE)
           (MkLiveness 4 2 (hlc.MkLegacyTimestamp 100 0) false
                       MembershipStatus_DECOMMISSIONING));
    first [reflexivity | left; reflexivity | right; left; reflexivity].
Defined.
